(** * Forum thread monitor (sgr-raidping, main.py): shallow embedding

    The Python program polls a rendered forum page, extracts thread
    records, notifies a webhook once per unseen thread id, and keeps a
    bounded, persisted list of seen ids.  The browser (Playwright), the
    HTTP client and the file system are external: their answers are
    modelled as explicit inputs (oracles) of each step, and the program's
    mutable state (the [seen_threads] list shared by reference between
    [forum_monitor_loop] and [save_seen_threads], the state file, and the
    log of webhook posts) is threaded explicitly. *)

From Stdlib Require Import List String Ascii ZArith Arith Lia Bool.
Import ListNotations.

#[local] Set Warnings "-register-all".
Open Scope string_scope.
Open Scope list_scope.

Module Code.

(** ** Python values used by the program *)

(** A JSON value, as returned by [json.load]. *)
Inductive json :=
| JNull
| JBool (b : bool)
| JNum (z : Z)
| JStr (s : string)
| JArr (l : list json)
| JObj (kv : list (string * json)).

(** The state file [seen_threads.json] as the file system presents it. *)
Inductive file_state :=
| FAbsent                 (* os.path.exists is False *)
| FUnreadable             (* exists, but open/read raises *)
| FGarbage                (* readable, but json.load raises *)
| FJson (v : json).       (* readable and parses to v *)

(** Python's [x in l] on a list of strings. *)
Definition py_in (x : string) (l : list string) : bool :=
  existsb (String.eqb x) l.

(** Python's slice [l[-n:]]: for [n > 0] the last [min n (len l)]
    elements; note [l[-0:]] is [l[0:]], the whole list. *)
Definition py_tail_slice (n : nat) (l : list string) : list string :=
  match n with
  | O => l
  | S _ => skipn (List.length l - n) l
  end.

(** Python's [str.strip()] with no argument.  A character is read as
    the code point U+0000..U+00FF; in that range [str.isspace] holds for
    \t \n \x0b \x0c \r, \x1c..\x1f, space, U+0085 and U+00A0. *)
Definition py_is_space (c : ascii) : bool :=
  match nat_of_ascii c with
  | 9 | 10 | 11 | 12 | 13 | 28 | 29 | 30 | 31 | 32 | 133 | 160 => true
  | _ => false
  end.

Fixpoint lstrip (s : string) : string :=
  match s with
  | EmptyString => EmptyString
  | String c r => if py_is_space c then lstrip r else s
  end.

Definition rev_string (s : string) : string :=
  string_of_list_ascii (rev (list_ascii_of_string s)).

Definition py_strip (s : string) : string :=
  rev_string (lstrip (rev_string (lstrip s))).

(** Decimal rendering of a Python [int] inside an f-string. *)
Fixpoint uint_to_string (d : Decimal.uint) : string :=
  match d with
  | Decimal.Nil => EmptyString
  | Decimal.D0 r => String "0"%char (uint_to_string r)
  | Decimal.D1 r => String "1"%char (uint_to_string r)
  | Decimal.D2 r => String "2"%char (uint_to_string r)
  | Decimal.D3 r => String "3"%char (uint_to_string r)
  | Decimal.D4 r => String "4"%char (uint_to_string r)
  | Decimal.D5 r => String "5"%char (uint_to_string r)
  | Decimal.D6 r => String "6"%char (uint_to_string r)
  | Decimal.D7 r => String "7"%char (uint_to_string r)
  | Decimal.D8 r => String "8"%char (uint_to_string r)
  | Decimal.D9 r => String "9"%char (uint_to_string r)
  end.

Definition py_int_str (z : Z) : string :=
  match Z.to_int z with
  | Decimal.Pos d => uint_to_string d
  | Decimal.Neg d => String "-"%char (uint_to_string d)
  end.

(** Exceptions the loop distinguishes.  In Playwright,
    [TimeoutError] is a subclass of [playwright.async_api.Error]. *)
Inductive exc :=
| PwTimeoutError          (* playwright TimeoutError(Error) *)
| PwTargetClosed          (* page / browser closed *)
| PwOtherError            (* any other playwright Error *)
| PyException.            (* any non-playwright Exception *)

(** [isinstance(e, PlaywrightError)] *)
Definition is_playwright_error (e : exc) : bool :=
  match e with
  | PyException => false
  | _ => true
  end.

(** ** Configuration *)

Definition DISCORD_FORUM_URL : string :=
  "https://discord.com/channels/1000384021542469632/1303601992169426995".
Definition MAX_SEEN_THREADS : nat := 20.
Definition BLOCKED_THREAD_ID : string := "1303609863024148602".
Definition FOOTER_TEXT : string := "brought to you by arle.".
Definition FOOTER_ICON : string := "https://i.imgur.com/JdlwG9w.jpeg".
Definition USERNAME : string := "Arlecchino".

(** ** Browser answers for one thread element *)

(** The outcome of [query_selector] followed by reading the element:
    no element, an element with the given value, or a raise. *)
Inductive query (A : Type) :=
| QMissing
| QFound (a : A)
| QRaises.
Arguments QMissing {A}.
Arguments QFound {A} a.
Arguments QRaises {A}.

Record element := {
  el_title : query string;             (* inner_text of the title element *)
  el_author : query string;            (* inner_text of the author element *)
  el_content : query string;           (* inner_text of the preview element *)
  el_container : query (option string);(* get_attribute("data-item-id") *)
  el_time : query (option string)      (* get_attribute("datetime") *)
}.

(** The dict returned by [extract_thread_data]. *)
Record thread_data := {
  td_id : option string;
  td_title : string;
  td_author : string;
  td_content : string;
  td_url : string;
  td_timestamp : string
}.

(** [str(x)] of an optional string inside an f-string. *)
Definition py_opt_str (o : option string) : string :=
  match o with
  | Some s => s
  | None => "None"
  end.

(** Python truthiness of an optional string ([not x]). *)
Definition py_falsy (o : option string) : bool :=
  match o with
  | None => true
  | Some s => String.eqb s ""
  end.

(** Webhook payload. *)
Record payload := {
  p_username : string;
  p_content : string;
  p_embed_title : string;
  p_embed_description : string;
  p_footer_text : string;
  p_footer_icon : string
}.

(** Outcome of [requests.post]. *)
Inductive send_outcome :=
| SendStatus (code : Z)
| SendRaises.

(** Outcome of [open(THREADS_FILE, "w")] and [json.dump]. *)
Inductive write_outcome :=
| WriteOk
| OpenFails               (* open raises: file untouched *)
| DumpFails.              (* file truncated, dump raises: garbage left *)

(** One candidate: the element and the environment's answers to the
    calls made while processing it. *)
Record candidate := {
  cand_elem : element;
  cand_send : send_outcome;
  cand_write : write_outcome
}.

(** The program state: the shared [seen_threads] list, the state file,
    and the log of webhook posts (id that triggered it, payload,
    value returned by [send_payload]). *)
Record state := {
  seen : list string;
  file : file_state;
  sent : list (string * payload * option Z)
}.

(** One cycle's environment. *)
Record cycle_env := {
  ce_wait : option exc;                    (* page.wait_for_selector *)
  ce_list : exc + list candidate;        (* page.query_selector_all *)
  ce_scroll_every : nat;                   (* random.randint(8, 16) *)
  ce_scroll : option exc;                  (* page.mouse.wheel *)
  ce_reload : option exc                   (* page.reload *)
}.

Inductive iter_result :=
| IterReturn (st : state)                  (* forum_monitor_loop returns *)
| IterNext (st : state) (counter : nat).   (* next turn of while True *)

Inductive loop_result :=
| LoopEnded (st : state)
| LoopRunning (st : state) (counter : nat).

(** The JSON text written by [json.dump(seen_list, f)]. *)
Definition json_of_ids (l : list string) : json := JArr (map JStr l).

(** ** SeenStore *)

(** [load_seen_threads] *)
Definition load_seen_threads (f : file_state) : json :=
  match f with
  | FAbsent => JArr []
  | FUnreadable => JArr []
  | FGarbage => JArr []
  | FJson v => v
  end.

Definition write_file (w : write_outcome) (l : list string)
  (old : file_state) : file_state :=
  match w with
  | WriteOk => FJson (json_of_ids l)
  | OpenFails => old
  | DumpFails => FGarbage
  end.

Section Monitor.

(** The bound [MAX_SEEN_THREADS] (20 in the source), the value of
    [datetime.utcnow().isoformat() + "Z"], the process's string [hash],
    and [ROLE_PING_ID]. *)
Variable max_seen : nat.
Variable now : string.
Variable py_hash : string -> Z.
Variable role_ping_id : option string.

(** [save_seen_threads(seen_list)]: truncates the shared list in place,
    then attempts the write. *)
Definition save_seen_threads (w : write_outcome) (st : state) : state :=
  let l := py_tail_slice max_seen (seen st) in
  {| seen := l; file := write_file w l (file st); sent := sent st |}.

(** [seen_threads.append(x); save_seen_threads(seen_threads)] *)
Definition record (w : write_outcome) (x : string) (st : state) : state :=
  save_seen_threads w
    {| seen := seen st ++ [x]; file := file st; sent := sent st |}.

(** A field lookup with its placeholder when the element is missing;
    [None] when the lookup raises. *)
Definition field_or (q : query string) (dflt : string) : option string :=
  match q with
  | QMissing => Some dflt
  | QFound s => Some s
  | QRaises => None
  end.

(** [extract_thread_data(thread_element)]: [None] is the
    [except Exception: return None] path. *)
Definition extract_thread_data (e : element) : option thread_data :=
  match field_or (el_title e) "Untitled Thread",
        field_or (el_author e) "Unknown",
        field_or (el_content e) "" with
  | Some title, Some author, Some content =>
      let idurl :=
        match el_container e with
        | QRaises => None
        | QMissing => Some (None, "")
        | QFound a =>
            Some (a, String.append DISCORD_FORUM_URL
                       (String.append "/threads/" (py_opt_str a)))
        end in
      let ts :=
        match el_time e with
        | QRaises => None
        | QMissing => Some None
        | QFound a => Some a
        end in
      match idurl, ts with
      | Some (thread_id, thread_url), Some timestamp =>
          let timestamp :=
            if py_falsy timestamp then now else py_opt_str timestamp in
          Some {| td_id := thread_id;
                  td_title := py_strip title;
                  td_author := py_strip author;
                  td_content := py_strip content;
                  td_url := thread_url;
                  td_timestamp := timestamp |}
      | _, _ => None
      end
  | _, _, _ => None
  end.

(** The id used for dedup: the native id, or
    [f"fallback:{hash(url + title)}"] when it is falsy. *)
Definition thread_key (td : thread_data) : string :=
  if py_falsy (td_id td)
  then String.append "fallback:"
         (py_int_str (py_hash (String.append (td_url td) (td_title td))))
  else py_opt_str (td_id td).

(** The payload built by [post_new_thread_webhook]. *)
Definition build_payload (td : thread_data) : payload :=
  let content_preview := py_strip (td_content td) in
  let mention :=
    if py_falsy role_ping_id then ""
    else String.append "<@&" (String.append (py_opt_str role_ping_id) ">") in
  {| p_username := USERNAME;
     p_content := mention;
     p_embed_title := td_title td;
     p_embed_description :=
       if String.eqb content_preview "" then "No preview available."
       else content_preview;
     p_footer_text := FOOTER_TEXT;
     p_footer_icon := FOOTER_ICON |}.

(** [send_payload]: the status code, or [None] when [requests.post]
    raises (the exception is caught and printed). *)
Definition send_payload (o : send_outcome) : option Z :=
  match o with
  | SendStatus code => Some code
  | SendRaises => None
  end.

(** [post_new_thread_webhook(thread_data)]: one post, logged. *)
Definition post_new_thread_webhook (td : thread_data) (o : send_outcome)
  (st : state) : state :=
  {| seen := seen st; file := file st;
     sent := sent st ++ [(thread_key td, build_payload td, send_payload o)] |}.

(** The body of [for thread_el in thread_elements]. *)
Definition process_item (st : state) (c : candidate) : state :=
  match extract_thread_data (cand_elem c) with
  | None => st
  | Some td =>
      let thread_id := thread_key td in
      if String.eqb thread_id BLOCKED_THREAD_ID then
        record (cand_write c) thread_id st
      else if negb (py_in thread_id (seen st)) then
        record (cand_write c) thread_id
          (post_new_thread_webhook td (cand_send c) st)
      else st
  end.

Definition process_items (st : state) (cs : list candidate) : state :=
  fold_left process_item cs st.

(** The two [except] clauses around the body of [while True]. *)
Definition handle (e : exc) (st : state) (counter : nat) : iter_result :=
  if is_playwright_error e then IterReturn st   (* except PlaywrightError: return *)
  else IterNext st counter.                     (* except Exception: sleep(10) *)

(** One turn of [while True] in [forum_monitor_loop]. *)
Definition iteration (st : state) (counter : nat) (env : cycle_env)
  : iter_result :=
  match ce_wait env with
  | Some e => handle e st counter
  | None =>
      match ce_list env with
      | inl e => handle e st counter
      | inr cs =>
          let st1 := process_items st cs in
          let counter1 := S counter in
          let r := ce_scroll_every env in
          if Nat.eqb r 0 then handle PyException st1 counter1
          else
            let scrolled :=
              if Nat.eqb (counter1 mod r) 0 then
                match ce_scroll env with
                | None => None
                | Some e => Some (handle e st1 counter1)
                end
              else None in
            match scrolled with
            | Some res => res
            | None =>
                if Nat.eqb (counter1 mod 40) 0 then
                  match ce_reload env with
                  | None => IterNext st1 counter1
                  | Some e => handle e st1 counter1
                  end
                else IterNext st1 counter1
            end
      end
  end.

(** [forum_monitor_loop(page, seen_threads)] run on a finite prefix of
    cycle environments. *)
Fixpoint monitor (st : state) (counter : nat) (envs : list cycle_env)
  : loop_result :=
  match envs with
  | [] => LoopRunning st counter
  | env :: rest =>
      match iteration st counter env with
      | IterReturn st' => LoopEnded st'
      | IterNext st' counter' => monitor st' counter' rest
      end
  end.

End Monitor.

(** Number of webhook posts triggered by id [x]. *)
Definition count_sent (x : string) (st : state) : nat :=
  List.length (filter (fun e => String.eqb (fst (fst e)) x) (sent st)).

(** [x] occurs among the last [j] entries of [l]. *)
Definition in_last (j : nat) (x : string) (l : list string) : Prop :=
  In x (skipn (List.length l - j) l).

(** The id a candidate is deduplicated under, when extraction succeeds. *)
Definition cand_key (now : string) (py_hash : string -> Z) (c : candidate)
  : option string :=
  option_map (thread_key py_hash) (extract_thread_data now (cand_elem c)).

(** No lookup of the element raises. *)
Definition no_raise {A} (q : query A) : bool :=
  match q with QRaises => false | _ => true end.

(** Some lookup of the element raises: [extract_thread_data] takes its
    [except Exception] path. *)
Definition element_raises (e : element) : bool :=
  negb (no_raise (el_title e) && no_raise (el_author e) &&
        no_raise (el_content e) && no_raise (el_container e) &&
        no_raise (el_time e)).

(** The same cycle environment with another candidate list. *)
Definition with_candidates (env : cycle_env) (cs : list candidate)
  : cycle_env :=
  {| ce_wait := ce_wait env; ce_list := inr cs;
     ce_scroll_every := ce_scroll_every env; ce_scroll := ce_scroll env;
     ce_reload := ce_reload env |}.

(** The cycle got its candidate list: the wait and the listing did not
    raise. *)
Definition env_listed (env : cycle_env) : bool :=
  match ce_wait env, ce_list env with
  | None, inr _ => true
  | _, _ => false
  end.

(** The candidates a cycle processes: the listed ones, or none when the
    wait or the listing raises. *)
Definition env_cands (env : cycle_env) : list candidate :=
  match ce_wait env, ce_list env with
  | None, inr cs => cs
  | _, _ => []
  end.

(** Successive [record] calls, each with the outcome of its write. *)
Definition record_all (max_seen : nat) (st : state)
  (ops : list (string * write_outcome)) : state :=
  fold_left (fun s op => record max_seen (snd op) (fst op) s) ops st.

(** The file is untouched, left as garbage by a failed dump, or holds a
    JSON array of at most [m] ids. *)
Definition persisted_bounded (m : nat) (old new : file_state) : Prop :=
  new = old \/ new = FGarbage \/
  exists l, new = FJson (json_of_ids l) /\ List.length l <= m.

(** ** Slice lemmas *)

Lemma in_skipn_in (n : nat) (x : string) (l : list string) :
  In x (skipn n l) -> In x l.
Proof.
  intros H. rewrite <- (firstn_skipn n l). apply in_or_app. now right.
Qed.

Lemma skipn_app_le (n : nat) (l l' : list string) :
  n <= List.length l -> skipn n (l ++ l') = skipn n l ++ l'.
Proof.
  intros H. rewrite skipn_app.
  replace (n - List.length l) with 0 by lia. reflexivity.
Qed.

Lemma py_tail_slice_snoc (m : nat) (l : list string) (x : string) :
  exists l', py_tail_slice m (l ++ [x]) = l' ++ [x].
Proof.
  destruct m as [|k]; simpl.
  - now exists l.
  - rewrite length_app; simpl.
    rewrite skipn_app_le by lia. now eexists.
Qed.

Lemma py_tail_slice_In_last (m : nat) (l : list string) (x : string) :
  In x (py_tail_slice m (l ++ [x])).
Proof.
  destruct (py_tail_slice_snoc m l x) as [l' ->].
  apply in_or_app. right. now left.
Qed.

Lemma py_tail_slice_length (m : nat) (l : list string) :
  0 < m -> List.length (py_tail_slice m l) <= m.
Proof.
  intros Hm. destruct m as [|k]; [lia|]. simpl.
  rewrite length_skipn. lia.
Qed.

(** Truncating before appending changes nothing: [l[-m:]] then
    [+ L] then [[-m:]] equals [(l + L)[-m:]]. *)
Lemma py_tail_slice_idem (m : nat) (l L : list string) :
  0 < m ->
  py_tail_slice m (py_tail_slice m l ++ L) = py_tail_slice m (l ++ L).
Proof.
  intros Hm. destruct m as [|k]; [lia|]. cbn [py_tail_slice].
  rewrite <- (skipn_app_le (List.length l - S k) l L) by lia.
  rewrite skipn_skipn, !length_app, length_skipn.
  f_equal. rewrite ?length_app; lia.
Qed.

Lemma py_tail_slice_incl (m : nat) (x : string) (l : list string) :
  In x (py_tail_slice m l) -> In x l.
Proof. destruct m; [auto | apply in_skipn_in]. Qed.

(** Once at least [m] ids follow, the older ones are all gone. *)
Lemma py_tail_slice_long (m : nat) (l ys : list string) :
  0 < m -> m <= List.length ys ->
  py_tail_slice m (l ++ ys) = py_tail_slice m ys.
Proof.
  intros Hm Hy. destruct m as [|k]; [lia|]. cbn [py_tail_slice].
  rewrite length_app, skipn_app, skipn_all2 by lia. simpl. f_equal. lia.
Qed.

Lemma py_in_In (x : string) (l : list string) :
  py_in x l = true <-> In x l.
Proof.
  unfold py_in. rewrite existsb_exists. split.
  - intros [y [Hy Heq]]. apply String.eqb_eq in Heq. now subst.
  - intros H. exists x. split; [exact H | apply String.eqb_refl].
Qed.

Lemma in_last_In (j : nat) (x : string) (l : list string) :
  in_last j x l -> In x l.
Proof. apply in_skipn_in. Qed.

Lemma In_skipn_le (a b : nat) (x : string) (l : list string) :
  a <= b -> In x (skipn b l) -> In x (skipn a l).
Proof.
  intros Hab H. apply (in_skipn_in (b - a)).
  rewrite skipn_skipn. now replace (b - a + a) with b by lia.
Qed.

Lemma in_last_mono (j k : nat) (x : string) (l : list string) :
  j <= k -> in_last j x l -> in_last k x l.
Proof.
  unfold in_last. intros Hjk H.
  apply (in_skipn_in ((List.length l - j) - (List.length l - k))).
  rewrite skipn_skipn.
  replace (List.length l - j - (List.length l - k) + (List.length l - k))
    with (List.length l - j) by lia.
  exact H.
Qed.

(** ** [str.strip] lemmas *)

Lemma list_ascii_of_string_append (u v : string) :
  list_ascii_of_string (String.append u v) =
  list_ascii_of_string u ++ list_ascii_of_string v.
Proof. induction u as [|c u IH]; simpl; [reflexivity | now rewrite IH]. Qed.

Lemma string_of_list_ascii_app (l1 l2 : list ascii) :
  string_of_list_ascii (l1 ++ l2) =
  String.append (string_of_list_ascii l1) (string_of_list_ascii l2).
Proof. induction l1 as [|c l1 IH]; simpl; [reflexivity | now rewrite IH]. Qed.

Lemma rev_string_involutive (s : string) : rev_string (rev_string s) = s.
Proof.
  unfold rev_string. rewrite list_ascii_of_string_of_list_ascii, rev_involutive.
  apply string_of_list_ascii_of_string.
Qed.

Lemma rev_string_cons (c : ascii) (r : string) :
  rev_string (String c r) = String.append (rev_string r) (String c "").
Proof.
  unfold rev_string. simpl. now rewrite string_of_list_ascii_app.
Qed.

Lemma rev_string_snoc (u : string) (c : ascii) :
  rev_string (String.append u (String c "")) = String c (rev_string u).
Proof.
  unfold rev_string. rewrite list_ascii_of_string_append. simpl.
  now rewrite rev_app_distr.
Qed.

Lemma lstrip_idem (s : string) : lstrip (lstrip s) = lstrip s.
Proof.
  induction s as [|c r IH]; simpl; [reflexivity|].
  destruct (py_is_space c) eqn:E; [exact IH | simpl; now rewrite E].
Qed.

Lemma lstrip_head (s : string) :
  lstrip s = EmptyString \/
  exists c r, lstrip s = String c r /\ py_is_space c = false.
Proof.
  induction s as [|c r IH]; simpl; [now left|].
  destruct (py_is_space c) eqn:E; [exact IH | right; eauto].
Qed.

Lemma lstrip_snoc (u : string) (c : ascii) :
  py_is_space c = false ->
  exists u', lstrip (String.append u (String c "")) =
             String.append u' (String c "").
Proof.
  intros Hc. induction u as [|d u IH]; simpl.
  - rewrite Hc. now exists EmptyString.
  - destruct (py_is_space d); [exact IH|].
    now exists (String d u).
Qed.

Lemma lstrip_py_strip (s : string) : lstrip (py_strip s) = py_strip s.
Proof.
  unfold py_strip.
  destruct (lstrip_head s) as [E | [c [r [E Hc]]]]; rewrite E.
  - reflexivity.
  - rewrite rev_string_cons.
    destruct (lstrip_snoc (rev_string r) c Hc) as [u' ->].
    rewrite rev_string_snoc. simpl. now rewrite Hc.
Qed.

Lemma py_strip_idem (s : string) : py_strip (py_strip s) = py_strip s.
Proof.
  rewrite <- (lstrip_py_strip s) at 2. unfold py_strip at 1.
  rewrite lstrip_py_strip. unfold py_strip at 1.
  rewrite rev_string_involutive, lstrip_idem. reflexivity.
Qed.

(** ** Concrete inputs *)

(** A process [hash] for the examples. *)
Definition sample_hash (s : string) : Z := Z.of_nat (String.length s).

(** A rendered thread card with native id [id]. *)
Definition thread_elem (id : string) : element :=
  {| el_title := QFound "A"; el_author := QFound "u"; el_content := QMissing;
     el_container := QFound (Some id); el_time := QMissing |}.

Definition thread_cand (id : string) : candidate :=
  {| cand_elem := thread_elem id; cand_send := SendStatus 204;
     cand_write := WriteOk |}.

(** Twenty (or [n]) other threads, ids "100", "101", ... *)
Definition other_threads (n : nat) : list candidate :=
  map (fun i => thread_cand (py_int_str (Z.of_nat (100 + i)))) (seq 0 n).

(** A card on which no title, author, preview, container or time
    element is found. *)
Definition bare_elem : element :=
  {| el_title := QMissing; el_author := QMissing; el_content := QMissing;
     el_container := QMissing; el_time := QMissing |}.

(** A card whose author lookup raises (e.g. the handle went stale). *)
Definition stale_cand : candidate :=
  {| cand_elem := {| el_title := QFound "B"; el_author := QRaises;
                     el_content := QMissing; el_container := QFound (Some "7");
                     el_time := QMissing |};
     cand_send := SendStatus 204; cand_write := WriteOk |}.

(** A new thread whose webhook post raises. *)
Definition unlucky_cand : candidate :=
  {| cand_elem := thread_elem "5"; cand_send := SendRaises;
     cand_write := WriteOk |}.

Definition unlucky_td : thread_data :=
  {| td_id := Some "5"; td_title := "A"; td_author := "u"; td_content := "";
     td_url := String.append DISCORD_FORUM_URL "/threads/5";
     td_timestamp := "now" |}.

(** Two cards without a data-item-id container, same title, different
    authors. *)
Definition noid_td1 : thread_data :=
  {| td_id := None; td_title := "Raid tonight"; td_author := "u";
     td_content := ""; td_url := ""; td_timestamp := "now" |}.

Definition noid_td2 : thread_data :=
  {| td_id := None; td_title := "Raid tonight"; td_author := "v";
     td_content := "x"; td_url := ""; td_timestamp := "later" |}.

Definition empty_state : state := {| seen := []; file := FAbsent; sent := [] |}.

Definition blocked_seen_state : state :=
  {| seen := [BLOCKED_THREAD_ID]; file := FAbsent; sent := [] |}.

Definition sample_env (cs : list candidate) : cycle_env :=
  {| ce_wait := None; ce_list := inr cs; ce_scroll_every := 8;
     ce_scroll := None; ce_reload := None |}.

(** The forum list did not render within 15 s. *)
Definition timeout_env : cycle_env :=
  {| ce_wait := Some PwTimeoutError; ce_list := inr [];
     ce_scroll_every := 8; ce_scroll := None; ce_reload := None |}.

Definition record_123 : list (string * write_outcome) :=
  [("1", WriteOk); ("2", WriteOk); ("3", WriteOk)].

(** Two poll cycles: "5" and [n] other new threads, then "5" again. *)
Definition window_run (n : nat) : list cycle_env :=
  [sample_env (thread_cand "5" :: other_threads n);
   sample_env [thread_cand "5"]].

(** ** Predicates on loop runs *)

(** An optional exception that is not a Playwright error. *)
Definition opt_pw_free (o : option exc) : bool :=
  match o with
  | Some e => negb (is_playwright_error e)
  | None => true
  end.

(** No call of the cycle raises a Playwright error. *)
Definition env_pw_free (env : cycle_env) : bool :=
  opt_pw_free (ce_wait env) &&
  match ce_list env with
  | inl e => negb (is_playwright_error e)
  | inr _ => true
  end &&
  opt_pw_free (ce_scroll env) && opt_pw_free (ce_reload env).

Definition iter_state (r : iter_result) : state :=
  match r with
  | IterReturn st => st
  | IterNext st _ => st
  end.

Definition loop_state (r : loop_result) : state :=
  match r with
  | LoopEnded st => st
  | LoopRunning st _ => st
  end.

(** The id a webhook post was made for. *)
Definition posted_id (e : string * payload * option Z) : string :=
  fst (fst e).

(** A cycle in which the page answers with [cs] and the scroll
    (every [r]-th cycle) raises [e]. *)
Definition scroll_fail_env (cs : list candidate) (r : nat) (e : exc)
  : cycle_env :=
  {| ce_wait := None; ce_list := inr cs; ce_scroll_every := r;
     ce_scroll := Some e; ce_reload := None |}.

(** A card with a container but no [data-item-id] attribute. *)
Definition no_attr_elem : element :=
  {| el_title := QFound " Raid "; el_author := QMissing; el_content := QMissing;
     el_container := QFound None; el_time := QFound (Some "") |}.

(** Every write of the cycle's candidates succeeds. *)
Definition is_write_ok (w : write_outcome) : bool :=
  match w with WriteOk => true | _ => false end.

Definition env_writes_ok (env : cycle_env) : bool :=
  match ce_list env with
  | inl _ => true
  | inr cs => forallb (fun c => is_write_ok (cand_write c)) cs
  end.

End Code.
Import Code.

Section Proofs.

Variable max_seen : nat.
Variable now : string.
Variable py_hash : string -> Z.
Variable role_ping_id : option string.

Local Abbreviation record := (record max_seen).
Local Abbreviation record_all := (record_all max_seen).
Local Abbreviation thread_key := (thread_key py_hash).
Local Abbreviation cand_key := (cand_key now py_hash).
Local Abbreviation extract_thread_data := (extract_thread_data now).
Local Abbreviation build_payload := (build_payload role_ping_id).
Local Abbreviation process_item := (process_item max_seen now py_hash role_ping_id).
Local Abbreviation process_items := (process_items max_seen now py_hash role_ping_id).
Local Abbreviation iteration := (iteration max_seen now py_hash role_ping_id).
Local Abbreviation monitor := (monitor max_seen now py_hash role_ping_id).

Lemma record_seen (w : write_outcome) (x : string) (st : state) :
  seen (record w x st) = py_tail_slice max_seen (seen st ++ [x]).
Proof. reflexivity. Qed.

Lemma record_file (w : write_outcome) (x : string) (st : state) :
  file (record w x st) = write_file w (seen (record w x st)) (file st).
Proof. reflexivity. Qed.

Lemma record_sent (w : write_outcome) (x : string) (st : state) :
  sent (record w x st) = sent st.
Proof. reflexivity. Qed.

Lemma record_all_cons (op : string * write_outcome) ops (st : state) :
  record_all st (op :: ops) = record_all (record (snd op) (fst op) st) ops.
Proof. reflexivity. Qed.

Lemma record_all_seen (Hm : 0 < max_seen) ops : forall st,
  seen (record_all st ops) =
  match ops with
  | [] => seen st
  | _ => py_tail_slice max_seen (seen st ++ map fst ops)
  end.
Proof.
  induction ops as [|op ops IH]; intros st; [reflexivity|].
  rewrite record_all_cons, IH.
  destruct ops as [|op' ops']; [reflexivity|].
  rewrite record_seen, py_tail_slice_idem by exact Hm.
  now rewrite <- app_assoc.
Qed.

Lemma persisted_bounded_step (Hm : 0 < max_seen) (f0 : file_state)
  (w : write_outcome) (x : string) (st : state) :
  persisted_bounded max_seen f0 (file st) ->
  persisted_bounded max_seen f0 (file (record w x st)).
Proof.
  intros H. rewrite record_file. destruct w; simpl.
  - right; right. eexists; split; [reflexivity|].
    apply py_tail_slice_length, Hm.
  - exact H.
  - now right; left.
Qed.

Lemma record_all_file_bounded (Hm : 0 < max_seen) ops : forall st f0,
  persisted_bounded max_seen f0 (file st) ->
  persisted_bounded max_seen f0 (file (record_all st ops)).
Proof.
  induction ops as [|op ops IH]; intros st f0 H; [exact H|].
  rewrite record_all_cons. apply IH, persisted_bounded_step; assumption.
Qed.

(** ** C10: [save_seen_threads] truncates the caller's list in place *)

(** C10: one [record] call (append, then [save_seen_threads]) leaves the
    shared in-memory list equal to the last [MAX_SEEN] entries of the
    old list plus the new id, so of length at most [MAX_SEEN] and
    containing the new id, whatever the outcome of the file write; the
    file is then written from that truncated list (or left untouched,
    or left as garbage, when the write fails). *)
Theorem save_seen_threads_truncates_in_memory (Hm : 0 < max_seen)
  (st : state) (x : string) (w : write_outcome) :
  seen (record w x st) = py_tail_slice max_seen (seen st ++ [x]) /\
  List.length (seen (record w x st)) <= max_seen /\
  In x (seen (record w x st)) /\
  file (record w x st) = write_file w (seen (record w x st)) (file st).
Proof.
  split; [reflexivity|]. split; [|split].
  - apply py_tail_slice_length, Hm.
  - apply py_tail_slice_In_last.
  - reflexivity.
Qed.

(** ** C2: bounded FIFO SeenStore *)

(** C2: after any non-empty sequence of [record] calls, the in-memory
    list is the last [MAX_SEEN] entries of the initial list followed by
    the recorded ids (oldest evicted first), so its length is at most
    [MAX_SEEN]; every file content the calls persist is a JSON array of
    at most [MAX_SEEN] ids; and when the last write succeeds the file
    holds exactly that truncated sequence. *)
Theorem seen_store_bounded_fifo (Hm : 0 < max_seen) (st : state)
  (ops : list (string * write_outcome)) (Hne : ops <> []) :
  seen (record_all st ops) = py_tail_slice max_seen (seen st ++ map fst ops) /\
  List.length (seen (record_all st ops)) <= max_seen /\
  persisted_bounded max_seen (file st) (file (record_all st ops)) /\
  (forall ops' x, ops = ops' ++ [(x, WriteOk)] ->
     file (record_all st ops) =
     FJson (json_of_ids (py_tail_slice max_seen (seen st ++ map fst ops)))).
Proof.
  assert (Hs : seen (record_all st ops) =
               py_tail_slice max_seen (seen st ++ map fst ops)).
  { rewrite record_all_seen by exact Hm. now destruct ops. }
  split; [exact Hs|]. split; [|split].
  - rewrite Hs. apply py_tail_slice_length, Hm.
  - apply record_all_file_bounded; [exact Hm | now left].
  - intros ops' x Hops. rewrite <- Hs.
    rewrite Hops. unfold record_all at 1 2. rewrite !fold_left_app.
    reflexivity.
Qed.

(** ** Per-item step *)

Lemma cand_key_extract (c : candidate) (x : string) :
  cand_key c = Some x ->
  exists td, extract_thread_data (cand_elem c) = Some td /\ thread_key td = x.
Proof.
  unfold Code.cand_key. destruct (Code.extract_thread_data _ _) as [td|];
    simpl; intros H; [|discriminate].
  exists td. split; [reflexivity | now injection H].
Qed.

(** C3: a candidate whose id is the blocked id triggers no post, whatever
    the prior seen list (even when it already holds the id): the id is
    appended and saved, so it is in the seen list afterwards.  The
    blocked-id test comes before the membership test. *)
Theorem blocked_thread_marked_seen_not_posted (st : state) (c : candidate)
  (Hk : cand_key c = Some BLOCKED_THREAD_ID) :
  sent (process_item st c) = sent st /\
  seen (process_item st c) =
    py_tail_slice max_seen (seen st ++ [BLOCKED_THREAD_ID]) /\
  In BLOCKED_THREAD_ID (seen (process_item st c)).
Proof.
  destruct (cand_key_extract c _ Hk) as [td [He Hid]].
  unfold Code.process_item. rewrite He. fold (thread_key td). rewrite Hid.
  rewrite String.eqb_refl.
  split; [reflexivity|]. split; [reflexivity|].
  apply py_tail_slice_In_last.
Qed.

Lemma process_item_unseen (st : state) (c : candidate) (td : thread_data)
  (He : extract_thread_data (cand_elem c) = Some td)
  (Hb : thread_key td <> BLOCKED_THREAD_ID)
  (Hn : ~ In (thread_key td) (seen st)) :
  process_item st c =
    {| seen := py_tail_slice max_seen (seen st ++ [thread_key td]);
       file := write_file (cand_write c)
                 (py_tail_slice max_seen (seen st ++ [thread_key td]))
                 (file st);
       sent := sent st ++ [(thread_key td, build_payload td,
                            send_payload (cand_send c))] |}.
Proof.
  unfold Code.process_item. rewrite He.
  fold (thread_key td).
  destruct (String.eqb_spec (thread_key td) BLOCKED_THREAD_ID) as [E|_];
    [contradiction|].
  destruct (py_in (thread_key td) (seen st)) eqn:Ein.
  - apply py_in_In in Ein. contradiction.
  - reflexivity.
Qed.

(** C7: an unseen, non-blocked thread is posted exactly once and then
    recorded, for every outcome of the post (a status code, or a raise
    caught by [send_payload]); the step returns normally and the id is
    in the seen list afterwards. *)
Theorem unseen_thread_posted_once_then_recorded (st : state)
  (c : candidate) (td : thread_data)
  (He : extract_thread_data (cand_elem c) = Some td)
  (Hb : thread_key td <> BLOCKED_THREAD_ID)
  (Hn : ~ In (thread_key td) (seen st)) :
  process_item st c =
    {| seen := py_tail_slice max_seen (seen st ++ [thread_key td]);
       file := write_file (cand_write c)
                 (py_tail_slice max_seen (seen st ++ [thread_key td]))
                 (file st);
       sent := sent st ++ [(thread_key td, build_payload td,
                            send_payload (cand_send c))] |} /\
  In (thread_key td) (seen (process_item st c)).
Proof.
  pose proof (process_item_unseen st c td He Hb Hn) as Hstep.
  split; [exact Hstep|]. rewrite Hstep. apply py_tail_slice_In_last.
Qed.

(** ** C8: fallback identifier *)

(** C8: two extracted records without a (truthy) native id and with the
    same url and title get the same dedup id,
    [f"fallback:{hash(url + title)}"], for the process's [hash]. *)
Theorem fallback_id_stable (td1 td2 : thread_data)
  (H1 : py_falsy (td_id td1) = true) (H2 : py_falsy (td_id td2) = true)
  (Hu : td_url td1 = td_url td2) (Ht : td_title td1 = td_title td2) :
  thread_key td1 = thread_key td2 /\
  thread_key td1 =
    String.append "fallback:"
      (py_int_str (py_hash (String.append (td_url td1) (td_title td1)))).
Proof.
  unfold Code.thread_key. rewrite H1, H2, Hu, Ht. now split.
Qed.

(** ** C5: field placeholders *)

(** C5 (as the code does it): when no lookup raises, extraction
    succeeds; a missing title becomes ["Untitled Thread"], a missing
    author ["Unknown"] and a missing preview [""]. *)
Theorem extract_defaults (e : element)
  (Hok : no_raise (el_title e) && no_raise (el_author e) &&
         no_raise (el_content e) && no_raise (el_container e) &&
         no_raise (el_time e) = true) :
  exists td, extract_thread_data e = Some td /\
    (el_title e = QMissing -> td_title td = "Untitled Thread") /\
    (el_author e = QMissing -> td_author td = "Unknown") /\
    (el_content e = QMissing -> td_content td = "").
Proof.
  destruct e as [t a c k tm]; simpl in *.
  destruct t; try discriminate; destruct a; try discriminate;
  destruct c; try discriminate; destruct k; try discriminate;
  destruct tm; try discriminate;
  eexists; (split; [reflexivity|]); simpl;
  repeat split; intros H; try discriminate H; reflexivity.
Qed.

(** ** C9: an extraction failure skips only its own candidate *)

Lemma extract_raises_none (e : element) :
  element_raises e = true -> extract_thread_data e = None.
Proof.
  destruct e as [t a c k tm]; unfold element_raises; simpl.
  destruct t, a, c, k, tm; simpl; intros H; try discriminate H; reflexivity.
Qed.

Lemma process_item_raises (st : state) (c : candidate) :
  element_raises (cand_elem c) = true -> process_item st c = st.
Proof.
  intros H. unfold Code.process_item.
  now rewrite (extract_raises_none _ H).
Qed.

(** C9: a candidate whose extraction raises is skipped and nothing else
    changes: the cycle's items before and after it are processed exactly
    as if it were absent, the cycle ends the same way, and so do all
    later cycles. *)
Theorem extraction_failure_skips_only_that_item (st : state)
  (counter : nat) (env : cycle_env) (rest : list cycle_env)
  (pre post : list candidate) (c : candidate)
  (Hl : ce_list env = inr (pre ++ c :: post))
  (Hr : element_raises (cand_elem c) = true) :
  process_items st (pre ++ c :: post) = process_items st (pre ++ post) /\
  iteration st counter env =
    iteration st counter (with_candidates env (pre ++ post)) /\
  monitor st counter (env :: rest) =
    monitor st counter (with_candidates env (pre ++ post) :: rest).
Proof.
  assert (Hp : process_items st (pre ++ c :: post) =
               process_items st (pre ++ post)).
  { unfold Code.process_items. rewrite !fold_left_app. simpl.
    now rewrite process_item_raises. }
  assert (Hi : iteration st counter env =
               iteration st counter (with_candidates env (pre ++ post))).
  { unfold Code.iteration. rewrite Hl. simpl.
    destruct (ce_wait env); [reflexivity|]. now rewrite Hp. }
  split; [exact Hp|]. split; [exact Hi|].
  simpl. now rewrite Hi.
Qed.

(** ** C4: a wait timeout ends the monitor *)

(** C4: when [page.wait_for_selector] times out, Playwright raises its
    [TimeoutError], a subclass of [playwright.async_api.Error]; the
    [except PlaywrightError] clause catches it first and
    [forum_monitor_loop] returns, whatever the later cycles would be. *)
Theorem wait_timeout_ends_monitor (st : state) (counter : nat)
  (env : cycle_env) (rest : list cycle_env)
  (Hw : ce_wait env = Some PwTimeoutError) :
  iteration st counter env = IterReturn st /\
  monitor st counter (env :: rest) = LoopEnded st.
Proof.
  unfold Code.monitor, Code.iteration. rewrite Hw. now split.
Qed.

(** ** C1: dedup within the bounded window *)

Lemma count_sent_post (x : string) (td : thread_data) (o : send_outcome)
  (st : state) :
  count_sent x (post_new_thread_webhook py_hash role_ping_id td o st) =
  count_sent x st + (if String.eqb (thread_key td) x then 1 else 0).
Proof.
  unfold count_sent, post_new_thread_webhook. simpl.
  rewrite filter_app, length_app. simpl.
  destruct (String.eqb (Code.thread_key py_hash td) x); reflexivity.
Qed.

Lemma count_sent_record (x : string) (w : write_outcome) (y : string)
  (st : state) :
  count_sent x (record w y st) = count_sent x st.
Proof. reflexivity. Qed.

(** While [x] is in the seen list, no step posts for [x]. *)
Lemma step_count_stable (x : string) (st : state) (c : candidate) :
  In x (seen st) -> count_sent x (process_item st c) = count_sent x st.
Proof.
  intros Hx. unfold Code.process_item.
  destruct (Code.extract_thread_data now (cand_elem c)) as [td|];
    [|reflexivity].
  destruct (String.eqb _ BLOCKED_THREAD_ID); [apply count_sent_record|].
  destruct (py_in (Code.thread_key py_hash td) (seen st)) eqn:Ein;
    simpl; [reflexivity|].
  rewrite count_sent_record, count_sent_post.
  destruct (String.eqb_spec (thread_key td) x) as [E|_]; [|lia].
  exfalso. rewrite E in Ein.
  apply (proj2 (py_in_In x (seen st))) in Hx. congruence.
Qed.

Lemma step_seen_cases (st : state) (c : candidate) :
  seen (process_item st c) = seen st \/
  exists y, seen (process_item st c) = py_tail_slice max_seen (seen st ++ [y]).
Proof.
  unfold Code.process_item.
  destruct (Code.extract_thread_data now (cand_elem c)) as [td|];
    [|now left].
  destruct (String.eqb _ BLOCKED_THREAD_ID); [right; eexists; reflexivity|].
  destruct (negb _); [right; eexists; reflexivity | now left].
Qed.

Lemma in_last_snoc (j : nat) (x y : string) (l : list string) :
  S j <= max_seen -> in_last j x l ->
  in_last (S j) x (py_tail_slice max_seen (l ++ [y])).
Proof.
  intros Hj H. unfold in_last in *.
  destruct max_seen as [|k] eqn:Em; [lia|]. cbn [py_tail_slice].
  rewrite length_app, length_skipn, length_app, skipn_skipn. simpl.
  rewrite skipn_app_le by lia.
  apply in_or_app. left.
  eapply In_skipn_le; [|exact H]. lia.
Qed.

Lemma step_in_last (x : string) (j : nat) (st : state) (c : candidate) :
  S j <= max_seen -> in_last j x (seen st) ->
  in_last (S j) x (seen (process_item st c)).
Proof.
  intros Hj H. destruct (step_seen_cases st c) as [E | [y E]]; rewrite E.
  - eapply in_last_mono; [|exact H]. lia.
  - now apply in_last_snoc.
Qed.

(** Within a window of at most [MAX_SEEN] steps after [x] was recorded,
    [x] stays in the seen list and is not posted again. *)
Lemma window_stable (x : string) (L : list candidate) : forall st j,
  j + List.length L <= max_seen -> in_last j x (seen st) ->
  count_sent x (process_items st L) = count_sent x st /\
  in_last (j + List.length L) x (seen (process_items st L)).
Proof.
  induction L as [|c L IH]; intros st j Hle H.
  - simpl. rewrite Nat.add_0_r. now split.
  - simpl in Hle. unfold Code.process_items. simpl.
    destruct (IH (process_item st c) (S j)) as [Hc Hl].
    + lia.
    + apply step_in_last; [lia | exact H].
    + fold (process_items (process_item st c) L).
      split.
      * rewrite Hc. apply step_count_stable. now apply in_last_In in H.
      * simpl. now rewrite <- Nat.add_succ_comm.
Qed.

Lemma first_sighting (st : state) (c : candidate) (x : string)
  (Hk : cand_key c = Some x) (Hb : x <> BLOCKED_THREAD_ID)
  (Hn : ~ In x (seen st)) :
  count_sent x (process_item st c) = S (count_sent x st) /\
  in_last 1 x (seen (process_item st c)).
Proof.
  destruct (cand_key_extract c x Hk) as [td [He Hid]]. subst x.
  rewrite (process_item_unseen st c td He Hb Hn). split.
  - unfold count_sent. simpl. rewrite filter_app, length_app. simpl.
    rewrite String.eqb_refl. simpl. lia.
  - simpl. unfold in_last.
    destruct (py_tail_slice_snoc max_seen (seen st) (thread_key td))
      as [l' ->].
    rewrite length_app. simpl.
    replace (List.length l' + 1 - 1) with (List.length l') by lia.
    rewrite skipn_app_le by lia. rewrite skipn_all. now left.
Qed.

(** Within the window, an id first seen at [c1] is posted once over
    [c1], the candidates [mid] and a second sighting [c2]. *)
Lemma dedup_within_window (st : state) (c1 c2 : candidate)
  (mid : list candidate) (x : string)
  (H1 : cand_key c1 = Some x) (H2 : cand_key c2 = Some x)
  (Hb : x <> BLOCKED_THREAD_ID) (Hn : ~ In x (seen st))
  (Hw : List.length mid < max_seen) :
  count_sent x (process_items st (c1 :: mid ++ [c2])) =
  S (count_sent x st).
Proof.
  unfold Code.process_items. simpl. rewrite fold_left_app. simpl.
  destruct (first_sighting st c1 x H1 Hb Hn) as [Hc1 Hl1].
  destruct (window_stable x mid (process_item st c1) 1) as [Hc Hl];
    [lia | exact Hl1|].
  unfold Code.process_items in Hc, Hl.
  rewrite step_count_stable by (eapply in_last_In; exact Hl).
  now rewrite Hc, Hc1.
Qed.
(** A step on an id other than [x] posts nothing for [x]. *)
Lemma count_other (x y : string) (st : state) (c : candidate) :
  cand_key c = Some y -> y <> x ->
  count_sent x (process_item st c) = count_sent x st.
Proof.
  intros Hk Hyx. destruct (cand_key_extract c y Hk) as [td [He Hid]].
  unfold Code.process_item. rewrite He. fold (thread_key td).
  destruct (String.eqb _ BLOCKED_THREAD_ID); [apply count_sent_record|].
  destruct (negb _); [|reflexivity].
  rewrite count_sent_record, count_sent_post.
  destruct (String.eqb_spec (thread_key td) x) as [E|_]; [congruence | lia].
Qed.

(** Distinct new ids, none of them [x], are each recorded in turn. *)
Lemma fresh_run (Hm : 0 < max_seen) (x : string) (mid : list candidate) :
  forall ys st,
  map cand_key mid = map Some ys -> NoDup ys ->
  Forall (fun y => y <> x /\ y <> BLOCKED_THREAD_ID /\ ~ In y (seen st)) ys ->
  count_sent x (process_items st mid) = count_sent x st /\
  seen (process_items st mid) =
    match ys with
    | [] => seen st
    | _ => py_tail_slice max_seen (seen st ++ ys)
    end.
Proof.
  induction mid as [|c mid IH]; intros ys st Hk Hnd Hf.
  - destruct ys; [now split | discriminate].
  - destruct ys as [|y ys]; [discriminate|].
    injection Hk as Hc Hk.
    inversion Hnd as [|? ? Hy Hnd']; subst.
    inversion Hf as [|? ? [Hyx [Hyb Hys]] Hf']; subst.
    destruct (cand_key_extract c y Hc) as [td [He Hid]]. subst y.
    assert (Hc1 : count_sent x (process_item st c) = count_sent x st)
      by exact (count_other x _ st c Hc Hyx).
    rewrite (process_item_unseen st c td He Hyb Hys) in Hc1.
    unfold Code.process_items. simpl.
    rewrite (process_item_unseen st c td He Hyb Hys).
    destruct (IH ys {| seen := py_tail_slice max_seen (seen st ++ [thread_key td]);
       file := write_file (cand_write c)
                 (py_tail_slice max_seen (seen st ++ [thread_key td]))
                 (file st);
       sent := sent st ++ [(thread_key td, build_payload td,
                            send_payload (cand_send c))] |} Hk Hnd')
      as [Hcnt Hseen].
    { rewrite Forall_forall in Hf' |- *. intros y' Hin'.
      destruct (Hf' y' Hin') as [H1 [H2 H3]]. simpl.
      split; [exact H1|]. split; [exact H2|].
      intros Hin. apply py_tail_slice_incl, in_app_or in Hin.
      destruct Hin as [Hin | [E | []]]; [contradiction|].
      subst y'. contradiction. }
    unfold Code.process_items in Hcnt, Hseen.
    rewrite Hcnt, Hc1. split; [reflexivity|]. rewrite Hseen. simpl.
    destruct ys as [|y' ys']; [reflexivity|].
    rewrite py_tail_slice_idem by exact Hm. now rewrite <- app_assoc.
Qed.


(** ** Further properties of the code *)

(** [extract_thread_data] returns [None] exactly when one of its
    lookups raises. *)
Theorem extract_none_iff_raises (e : element) :
  extract_thread_data e = None <-> element_raises e = true.
Proof.
  destruct e as [t a c k tm]; unfold element_raises; simpl.
  destruct t, a, c, k, tm; simpl; split; intros H;
    try discriminate H; reflexivity.
Qed.

(** The dedup key is the native id when that is truthy; when the id is
    [None] or empty it is ["fallback:"] followed by the decimal
    [hash(url + title)], which is never the blocked thread id, so only a
    native id can be suppressed by the blocked-thread rule. *)
Theorem thread_key_native_or_fallback (td : thread_data) :
  (py_falsy (td_id td) = false -> thread_key td = py_opt_str (td_id td)) /\
  (py_falsy (td_id td) = true ->
   thread_key td =
     String.append "fallback:"
       (py_int_str (py_hash (String.append (td_url td) (td_title td)))) /\
   thread_key td <> BLOCKED_THREAD_ID).
Proof.
  unfold Code.thread_key. split; intros H; rewrite H; [reflexivity|].
  split; [reflexivity | simpl; discriminate].
Qed.

(** The webhook embed never has an empty description: it is the
    stripped preview when that is non-empty, and
    "No preview available." when the stripped preview is empty. *)
Theorem payload_description_nonempty (td : thread_data) :
  p_embed_description (build_payload td) <> "" /\
  (py_strip (td_content td) = "" ->
   p_embed_description (build_payload td) = "No preview available.") /\
  (py_strip (td_content td) <> "" ->
   p_embed_description (build_payload td) = py_strip (td_content td)).
Proof.
  unfold Code.build_payload; simpl.
  destruct (String.eqb_spec (py_strip (td_content td)) "") as [E|E].
  - split; [discriminate|]. split; [reflexivity | intros H; contradiction].
  - split; [exact E|]. split; [intros H; contradiction | reflexivity].
Qed.

Lemma process_item_sent (st : state) (c : candidate) :
  exists new, sent (process_item st c) = sent st ++ new /\
    Forall (fun e => posted_id e <> BLOCKED_THREAD_ID) new /\
    List.length new <= 1.
Proof.
  unfold Code.process_item.
  destruct (Code.extract_thread_data now (cand_elem c)) as [td|];
    [|exists []; rewrite app_nil_r; auto].
  destruct (String.eqb_spec (Code.thread_key py_hash td) BLOCKED_THREAD_ID)
    as [E|E].
  - exists []; rewrite app_nil_r; auto.
  - destruct (negb _).
    + eexists. split; [reflexivity|]. split; [|simpl; lia].
      constructor; [exact E | constructor].
    + exists []; rewrite app_nil_r; auto.
Qed.

(** Over a cycle's candidates, the post log only grows by appending, by
    at most one post per candidate, and never with a post for the
    blocked thread id. *)
Theorem process_items_post_log (cs : list candidate) : forall st,
  exists new, sent (process_items st cs) = sent st ++ new /\
    Forall (fun e => posted_id e <> BLOCKED_THREAD_ID) new /\
    List.length new <= List.length cs.
Proof.
  induction cs as [|c cs IH]; intros st.
  - exists []. rewrite app_nil_r. simpl. auto.
  - unfold Code.process_items. simpl.
    destruct (process_item_sent st c) as [n1 [E1 [F1 L1]]].
    destruct (IH (process_item st c)) as [n2 [E2 [F2 L2]]].
    unfold Code.process_items in E2.
    exists (n1 ++ n2). rewrite E2, E1, app_assoc. split; [reflexivity|].
    split; [apply Forall_app; auto|]. rewrite length_app. lia.
Qed.

Lemma handle_state (e : exc) (st : state) (counter : nat) :
  iter_state (handle e st counter) = st.
Proof. unfold handle. now destruct (is_playwright_error e). Qed.

Lemma handle_next (e : exc) (st st' : state) (counter c' : nat) :
  handle e st counter = IterNext st' c' -> c' = counter.
Proof.
  unfold handle. destruct (is_playwright_error e); intros H;
    [discriminate | now injection H].
Qed.

Lemma iteration_state_eq (st : state) (counter : nat) (env : cycle_env) :
  iter_state (iteration st counter env) = process_items st (env_cands env).
Proof.
  unfold Code.iteration, env_cands.
  destruct (ce_wait env) as [e|]; [apply handle_state|].
  destruct (ce_list env) as [e|cs]; [apply handle_state|].
  destruct (Nat.eqb (ce_scroll_every env) 0); [apply handle_state|].
  destruct (Nat.eqb _ 0); [destruct (ce_scroll env)|];
    try apply handle_state;
    destruct (Nat.eqb _ 0); try reflexivity;
    destruct (ce_reload env); try reflexivity; apply handle_state.
Qed.

Lemma iteration_next_counter (st st' : state) (counter c' : nat)
  (env : cycle_env) :
  iteration st counter env = IterNext st' c' ->
  c' = if env_listed env then S counter else counter.
Proof.
  unfold Code.iteration, env_listed. intros H.
  destruct (ce_wait env) as [e|]; [exact (handle_next _ _ _ _ _ H)|].
  destruct (ce_list env) as [e|cs]; [exact (handle_next _ _ _ _ _ H)|].
  destruct (Nat.eqb (ce_scroll_every env) 0);
    [exact (handle_next _ _ _ _ _ H)|].
  destruct (Nat.eqb _ 0); [destruct (ce_scroll env)|];
    try exact (handle_next _ _ _ _ _ H);
    destruct (Nat.eqb _ 0); try (injection H; auto; fail);
    destruct (ce_reload env); try (injection H; auto; fail);
    exact (handle_next _ _ _ _ _ H).
Qed.

(** One turn of the loop changes the seen list, the file and the post
    log exactly by the per-item steps of that cycle, whatever happens at
    the scroll or reload (also when they raise and the loop returns):
    the state is the result of processing the listed candidates, and is
    unchanged when the wait or the listing raises.  When the loop goes
    on, the cycle counter grows by one exactly when the cycle got its
    list. *)
Theorem iteration_cycle_effect (st : state) (counter : nat)
  (env : cycle_env) :
  (forall cs, ce_wait env = None -> ce_list env = inr cs ->
     iter_state (iteration st counter env) = process_items st cs) /\
  ((exists e, ce_wait env = Some e) \/ (exists e, ce_list env = inl e) ->
     iter_state (iteration st counter env) = st) /\
  (forall st' c', iteration st counter env = IterNext st' c' ->
     c' = if env_listed env then S counter else counter).
Proof.
  rewrite iteration_state_eq. unfold env_cands. split; [|split].
  - intros cs Hw Hl. now rewrite Hw, Hl.
  - intros [[e Hw] | [e Hl]]; rewrite ?Hw, ?Hl; [reflexivity|].
    now destruct (ce_wait env).
  - intros st' c'. apply iteration_next_counter.
Qed.

(** Over a run of cycles in which the loop keeps running, the state is
    the result of processing, in order, the candidates of all cycles: the
    seen list is carried over from one cycle to the next. *)
Lemma monitor_running_state (envs : list cycle_env) :
  forall st counter st' c',
  monitor st counter envs = LoopRunning st' c' ->
  st' = process_items st (List.concat (map env_cands envs)).
Proof.
  induction envs as [|env envs IH]; intros st counter st' c' H.
  - simpl in H. now injection H as <-.
  - simpl in H. pose proof (iteration_state_eq st counter env) as E.
    destruct (iteration st counter env) as [s|s n]; [discriminate|].
    simpl in E. subst s. rewrite (IH _ _ _ _ H).
    unfold Code.process_items. simpl. now rewrite fold_left_app.
Qed.

Lemma process_items_seen_bound (Hm : 0 < max_seen) (cs : list candidate) :
  forall st, List.length (seen st) <= max_seen ->
  List.length (seen (process_items st cs)) <= max_seen.
Proof.
  induction cs as [|c cs IH]; intros st H; [exact H|].
  unfold Code.process_items. simpl. apply IH.
  destruct (step_seen_cases st c) as [E | [y E]]; rewrite E;
    [exact H | apply py_tail_slice_length, Hm].
Qed.

(** Over any run of the monitor loop, a seen list of at most [MAX_SEEN]
    ids stays within [MAX_SEEN] ids (whether the loop ends or keeps
    running). *)
Theorem monitor_seen_bound (Hm : 0 < max_seen) (envs : list cycle_env) :
  forall st counter, List.length (seen st) <= max_seen ->
  List.length (seen (loop_state (monitor st counter envs))) <= max_seen.
Proof.
  induction envs as [|env envs IH]; intros st counter H; [exact H|].
  simpl.
  pose proof (iteration_state_eq st counter env) as E.
  destruct (iteration st counter env) as [st'|st' c'];
    simpl in E; subst st'; simpl;
    [|apply IH]; apply process_items_seen_bound; assumption.
Qed.

Lemma iteration_pw_free (st : state) (counter : nat) (env : cycle_env) :
  env_pw_free env = true ->
  exists st' c', iteration st counter env = IterNext st' c'.
Proof.
  unfold env_pw_free, opt_pw_free, Code.iteration, handle.
  destruct (ce_wait env) as [e|];
    [destruct (is_playwright_error e); simpl; [discriminate|eauto]|].
  destruct (ce_list env) as [e|cs];
    [destruct (is_playwright_error e); simpl; [discriminate|eauto]|].
  destruct (ce_scroll env) as [e|]; destruct (ce_reload env) as [e'|];
    simpl; intros H;
    repeat (apply andb_prop in H; destruct H as [H ?]);
    repeat match goal with
           | H : negb ?b = true |- _ => apply negb_true_iff in H; rewrite H
           end;
    repeat match goal with
           | |- context [if ?b then _ else _] => destruct b
           end; eauto.
Qed.

(** The monitor loop ends only on a Playwright error: over cycles in
    which no call raises a Playwright error (other exceptions and all
    per-item failures included), it never returns. *)
Theorem monitor_runs_without_playwright_error (envs : list cycle_env) :
  forall st counter, forallb env_pw_free envs = true ->
  exists st' c', monitor st counter envs = LoopRunning st' c'.
Proof.
  induction envs as [|env envs IH]; intros st counter H; simpl in *; eauto.
  apply andb_prop in H as [H1 H2].
  destruct (iteration_pw_free st counter env H1) as [st' [c' E]].
  rewrite E. apply IH, H2.
Qed.

(** Extracted title, author and preview are already stripped, so the
    second [.strip()] in [post_new_thread_webhook] changes nothing: the
    embed title is the extracted title, and the embed description is the
    extracted preview whenever that is non-empty. *)
Theorem extracted_payload_uses_fields (e : element) (td : thread_data)
  (He : extract_thread_data e = Some td) :
  py_strip (td_title td) = td_title td /\
  py_strip (td_author td) = td_author td /\
  py_strip (td_content td) = td_content td /\
  p_embed_title (build_payload td) = td_title td /\
  (td_content td <> "" ->
   p_embed_description (build_payload td) = td_content td).
Proof.
  assert (Hs : py_strip (td_title td) = td_title td /\
               py_strip (td_author td) = td_author td /\
               py_strip (td_content td) = td_content td).
  { destruct e as [t a c k tm]; simpl in He.
    destruct t, a, c, k, tm; simpl in He; try discriminate He;
      injection He as <-; simpl; repeat split; apply py_strip_idem. }
  destruct Hs as [H1 [H2 H3]].
  split; [exact H1|]. split; [exact H2|]. split; [exact H3|].
  split; [reflexivity|]. intros Hne.
  unfold Code.build_payload; simpl. rewrite H3.
  destruct (String.eqb_spec (td_content td) "") as [E|_];
    [contradiction | reflexivity].
Qed.

Lemma process_items_load_sync (cs : list candidate) : forall st,
  forallb (fun c => is_write_ok (cand_write c)) cs = true ->
  load_seen_threads (file st) = json_of_ids (seen st) ->
  load_seen_threads (file (process_items st cs)) =
  json_of_ids (seen (process_items st cs)).
Proof.
  induction cs as [|c cs IH]; intros st Hw Hs; [exact Hs|].
  simpl in Hw. apply andb_prop in Hw as [Hc Hw].
  unfold Code.process_items. simpl. apply IH; [exact Hw|].
  destruct (cand_write c) eqn:Ew; try discriminate Hc.
  unfold Code.process_item.
  destruct (Code.extract_thread_data now (cand_elem c)); [|exact Hs].
  destruct (String.eqb _ _); [rewrite Ew; reflexivity|].
  destruct (negb _); [rewrite Ew; reflexivity | exact Hs].
Qed.

(** When every write of the state file succeeds, the file always loads
    back as the in-memory seen list, over any run of the loop: a restart
    resumes with exactly the ids the process had (starting, e.g., from
    no file and an empty list). *)
Theorem monitor_restart_loads_seen (envs : list cycle_env) :
  forall st counter,
  forallb env_writes_ok envs = true ->
  load_seen_threads (file st) = json_of_ids (seen st) ->
  load_seen_threads (file (loop_state (monitor st counter envs))) =
  json_of_ids (seen (loop_state (monitor st counter envs))).
Proof.
  induction envs as [|env envs IH]; intros st counter Hw Hs; [exact Hs|].
  simpl in Hw. apply andb_prop in Hw as [He Hw]. simpl.
  assert (Hi : load_seen_threads (file (iter_state (iteration st counter env))) =
               json_of_ids (seen (iter_state (iteration st counter env)))).
  { rewrite iteration_state_eq. unfold env_cands.
    unfold env_writes_ok in He.
    destruct (ce_wait env); [exact Hs|].
    destruct (ce_list env) as [e|cs]; [exact Hs|].
    apply process_items_load_sync; assumption. }
  destruct (iteration st counter env) as [st'|st' c']; simpl in Hi;
    [exact Hi | apply IH; assumption].
Qed.

(** ** C1 over runs of the monitor *)

(** After [x] is recorded, at least [MAX_SEEN] distinct new ids evict it,
    and its next sighting is posted again. *)
Lemma renotified_after_eviction (Hm : 0 < max_seen) (st : state)
  (c1 c2 : candidate) (mid : list candidate) (x : string)
  (ys : list string)
  (H1 : cand_key c1 = Some x) (H2 : cand_key c2 = Some x)
  (Hb : x <> BLOCKED_THREAD_ID) (Hn : ~ In x (seen st))
  (Hk : map cand_key mid = map Some ys) (Hnd : NoDup ys)
  (Hlen : max_seen <= List.length ys)
  (Hf : Forall (fun y => y <> x /\ y <> BLOCKED_THREAD_ID /\
                         ~ In y (seen st)) ys) :
  count_sent x (process_items st (c1 :: mid ++ [c2])) =
  S (S (count_sent x st)).
Proof.
  unfold Code.process_items. simpl. rewrite fold_left_app. simpl.
  destruct (first_sighting st c1 x H1 Hb Hn) as [Hc1 _].
  destruct (cand_key_extract c1 x H1) as [td [He Hid]].
  assert (Hs1 : seen (process_item st c1) =
                py_tail_slice max_seen (seen st ++ [x])).
  { rewrite (process_item_unseen st c1 td He); subst x; auto. }
  assert (Hf1 : Forall (fun y => y <> x /\ y <> BLOCKED_THREAD_ID /\
                         ~ In y (seen (process_item st c1))) ys).
  { rewrite Forall_forall in Hf |- *. intros y Hy.
    destruct (Hf y Hy) as [Hyx [Hyb Hys]].
    split; [exact Hyx|]. split; [exact Hyb|]. rewrite Hs1. intros Hin.
    apply py_tail_slice_incl, in_app_or in Hin.
    destruct Hin as [Hin | [E | []]]; [contradiction | congruence]. }
  destruct (fresh_run Hm x mid ys (process_item st c1) Hk Hnd Hf1)
    as [Hcnt Hseen].
  unfold Code.process_items in Hcnt, Hseen.
  assert (Hn2 : ~ In x (seen (fold_left process_item mid
                                (process_item st c1)))).
  { rewrite Hseen. destruct ys as [|y ys']; [simpl in Hlen; lia|].
    rewrite py_tail_slice_long by assumption. intros Hin.
    apply py_tail_slice_incl in Hin.
    rewrite Forall_forall in Hf. destruct (Hf x Hin) as [Hxx _].
    now apply Hxx. }
  destruct (first_sighting _ c2 x H2 Hb Hn2) as [Hc2 _].
  now rewrite Hc2, Hcnt, Hc1.
Qed.

(** C1 (as the code does it): dedup holds only within the bounded window
    of the seen list.  Take a run of the monitor over any number of
    cycles that keeps running, the seen list carried over from cycle to
    cycle, in which the candidates processed are a sighting [c1] of an
    id [x] (not blocked, not in the seen list at the start), then [mid],
    then a second sighting [c2] of [x].  If fewer than [MAX_SEEN]
    candidates come in between, [x] is posted exactly once over the run.
    If [MAX_SEEN > 0] and the candidates in between are at least
    [MAX_SEEN] distinct new ids (each extracted, none of them [x], the
    blocked id or already seen), [x] has been evicted and is posted
    exactly twice. *)
Theorem monitor_dedup_window (st : state) (counter : nat)
  (envs : list cycle_env) (st' : state) (c' : nat)
  (c1 c2 : candidate) (mid : list candidate) (x : string)
  (Hrun : monitor st counter envs = LoopRunning st' c')
  (Hcs : List.concat (map env_cands envs) = c1 :: mid ++ [c2])
  (H1 : cand_key c1 = Some x) (H2 : cand_key c2 = Some x)
  (Hb : x <> BLOCKED_THREAD_ID) (Hn : ~ In x (seen st)) :
  (List.length mid < max_seen ->
   count_sent x st' = S (count_sent x st)) /\
  (0 < max_seen -> forall ys : list string,
   map cand_key mid = map Some ys -> NoDup ys ->
   max_seen <= List.length ys ->
   Forall (fun y => y <> x /\ y <> BLOCKED_THREAD_ID /\
                    ~ In y (seen st)) ys ->
   count_sent x st' = S (S (count_sent x st))).
Proof.
  rewrite (monitor_running_state envs st counter st' c' Hrun), Hcs.
  split.
  - intros Hw. exact (dedup_within_window st c1 c2 mid x H1 H2 Hb Hn Hw).
  - intros Hm ys Hk Hnd Hlen Hf.
    exact (renotified_after_eviction Hm st c1 c2 mid x ys H1 H2 Hb Hn
             Hk Hnd Hlen Hf).
Qed.

End Proofs.

(** ** Witnesses and counterexamples *)

(** The spec's scenario: two sightings of "5" in one cycle post once
    and leave ["5"] in the file. *)
Example dedup_scenario :
  let st := process_items 20 "now" sample_hash None empty_state
              [thread_cand "5"; thread_cand "5"] in
  count_sent "5" st = 1 /\ file st = FJson (json_of_ids ["5"]).
Proof. vm_compute. split; reflexivity. Qed.

(** At [MAX_SEEN = 3]: "5" is posted once when two other threads come
    in between, and twice when three do. *)
Lemma monitor_dedup_window_witness :
  count_sent "5" (loop_state
    (monitor 3 "now" sample_hash None empty_state 0 (window_run 2))) = 1 /\
  count_sent "5" (loop_state
    (monitor 3 "now" sample_hash None empty_state 0 (window_run 3))) = 2.
Proof.
  split.
  - assert (E : monitor 3 "now" sample_hash None empty_state 0 (window_run 2) =
                LoopRunning (loop_state (monitor 3 "now" sample_hash None
                                           empty_state 0 (window_run 2))) 2)
      by (vm_compute; reflexivity).
    exact (proj1 (monitor_dedup_window 3 "now" sample_hash None empty_state 0
             (window_run 2) _ 2 (thread_cand "5") (thread_cand "5")
             (other_threads 2) "5" E eq_refl eq_refl eq_refl
             ltac:(discriminate) ltac:(simpl; tauto)) ltac:(simpl; lia)).
  - assert (E : monitor 3 "now" sample_hash None empty_state 0 (window_run 3) =
                LoopRunning (loop_state (monitor 3 "now" sample_hash None
                                           empty_state 0 (window_run 3))) 2)
      by (vm_compute; reflexivity).
    exact (proj2 (monitor_dedup_window 3 "now" sample_hash None empty_state 0
             (window_run 3) _ 2 (thread_cand "5") (thread_cand "5")
             (other_threads 3) "5" E eq_refl eq_refl eq_refl
             ltac:(discriminate) ltac:(simpl; tauto)) ltac:(lia)
             ["100"; "101"; "102"] eq_refl
             ltac:(repeat constructor; simpl; intuition discriminate)
             ltac:(simpl; lia)
             ltac:(repeat constructor; simpl; intuition discriminate)).
Defined.

(** C1 fails: with [MAX_SEEN_THREADS = 20], "5" sighted in one poll
    cycle, followed by twenty other new threads, and sighted again in
    the next cycle is posted twice. *)
Lemma notified_twice_after_eviction :
  count_sent "5" (loop_state
    (monitor MAX_SEEN_THREADS "now" sample_hash None empty_state 0
       (window_run 20))) = 2.
Proof. vm_compute. reflexivity. Qed.

(** C2 at [MAX_SEEN = 2]: recording "1", "2", "3" persists ["2"; "3"]. *)
Lemma seen_store_bounded_fifo_witness :
  seen (record_all 2 empty_state record_123) = ["2"; "3"] /\
  file (record_all 2 empty_state record_123) = FJson (json_of_ids ["2"; "3"]).
Proof.
  destruct (seen_store_bounded_fifo 2 ltac:(lia) empty_state record_123
              ltac:(discriminate)) as [Hs [_ [_ Hf]]].
  split.
  - rewrite Hs. reflexivity.
  - rewrite (Hf [("1", WriteOk); ("2", WriteOk)] "3" eq_refl). reflexivity.
Defined.

Lemma blocked_thread_marked_seen_not_posted_witness :
  sent (process_item 20 "now" sample_hash None blocked_seen_state
          (thread_cand BLOCKED_THREAD_ID)) = [] /\
  seen (process_item 20 "now" sample_hash None blocked_seen_state
          (thread_cand BLOCKED_THREAD_ID)) =
    py_tail_slice 20 [BLOCKED_THREAD_ID; BLOCKED_THREAD_ID] /\
  In BLOCKED_THREAD_ID
    (seen (process_item 20 "now" sample_hash None blocked_seen_state
             (thread_cand BLOCKED_THREAD_ID))).
Proof.
  apply (blocked_thread_marked_seen_not_posted 20 "now" sample_hash None
           blocked_seen_state (thread_cand BLOCKED_THREAD_ID)).
  reflexivity.
Defined.

(** C4's failing input: the first cycle's wait times out. *)
Lemma wait_timeout_ends_monitor_witness :
  monitor 20 "now" sample_hash None empty_state 0
    [timeout_env; sample_env [thread_cand "5"]] = LoopEnded empty_state.
Proof.
  apply (wait_timeout_ends_monitor 20 "now" sample_hash None empty_state 0
           timeout_env [sample_env [thread_cand "5"]]).
  reflexivity.
Defined.

(** C5 fails: a card without a title element gets the title
    ["Untitled Thread"], not ["Untitled"]. *)
Lemma missing_title_is_untitled_thread :
  option_map td_title (extract_thread_data "now" bare_elem) =
    Some "Untitled Thread" /\
  option_map td_title (extract_thread_data "now" bare_elem) <>
    Some "Untitled".
Proof. vm_compute. split; [reflexivity | discriminate]. Qed.

Lemma extract_defaults_witness :
  exists td, extract_thread_data "now" bare_elem = Some td /\
    (el_title bare_elem = QMissing -> td_title td = "Untitled Thread") /\
    (el_author bare_elem = QMissing -> td_author td = "Unknown") /\
    (el_content bare_elem = QMissing -> td_content td = "").
Proof. apply (extract_defaults "now" bare_elem). reflexivity. Defined.

(** C6 (code bug): a state file holding a well-formed JSON object, such
    as [{}], is returned by [load_seen_threads] as that object: neither
    the empty sequence nor any sequence of ids. *)
Theorem load_json_object_returned_as_is (kv : list (string * json)) :
  load_seen_threads (FJson (JObj kv)) = JObj kv /\
  (forall l, load_seen_threads (FJson (JObj kv)) <> JArr l).
Proof. split; [reflexivity | intros l; discriminate]. Qed.

Lemma unseen_thread_posted_once_then_recorded_witness :
  process_item 20 "now" sample_hash None empty_state unlucky_cand =
    {| seen := py_tail_slice 20 ([] ++ ["5"]);
       file := write_file WriteOk (py_tail_slice 20 ([] ++ ["5"])) FAbsent;
       sent := [] ++ [("5", build_payload None unlucky_td, None)] |} /\
  In "5" (seen (process_item 20 "now" sample_hash None empty_state
                  unlucky_cand)).
Proof.
  apply (unseen_thread_posted_once_then_recorded 20 "now" sample_hash None
           empty_state unlucky_cand unlucky_td);
    [reflexivity | discriminate | simpl; tauto].
Defined.

Lemma fallback_id_stable_witness :
  thread_key sample_hash noid_td1 = thread_key sample_hash noid_td2 /\
  thread_key sample_hash noid_td1 =
    String.append "fallback:"
      (py_int_str (sample_hash (String.append (td_url noid_td1)
                                              (td_title noid_td1)))).
Proof.
  apply (fallback_id_stable sample_hash noid_td1 noid_td2);
    reflexivity.
Defined.

Lemma extraction_failure_skips_only_that_item_witness :
  process_items 20 "now" sample_hash None empty_state
    ([thread_cand "1"] ++ stale_cand :: [thread_cand "2"]) =
  process_items 20 "now" sample_hash None empty_state
    ([thread_cand "1"] ++ [thread_cand "2"]) /\
  iteration 20 "now" sample_hash None empty_state 0
    (sample_env [thread_cand "1"; stale_cand; thread_cand "2"]) =
  iteration 20 "now" sample_hash None empty_state 0
    (with_candidates (sample_env [thread_cand "1"; stale_cand; thread_cand "2"])
       ([thread_cand "1"] ++ [thread_cand "2"])) /\
  monitor 20 "now" sample_hash None empty_state 0
    [sample_env [thread_cand "1"; stale_cand; thread_cand "2"]] =
  monitor 20 "now" sample_hash None empty_state 0
    [with_candidates (sample_env [thread_cand "1"; stale_cand; thread_cand "2"])
       ([thread_cand "1"] ++ [thread_cand "2"])].
Proof.
  apply (extraction_failure_skips_only_that_item 20 "now" sample_hash None
           empty_state 0
           (sample_env [thread_cand "1"; stale_cand; thread_cand "2"]) []
           [thread_cand "1"] [thread_cand "2"] stale_cand);
    reflexivity.
Defined.

Lemma save_seen_threads_truncates_in_memory_witness :
  let st := {| seen := ["1"; "2"]; file := FAbsent; sent := [] |} in
  seen (record 2 OpenFails "3" st) = ["2"; "3"] /\
  file (record 2 OpenFails "3" st) = FAbsent.
Proof.
  intros st.
  destruct (save_seen_threads_truncates_in_memory 2 ltac:(lia) st "3" OpenFails)
    as [Hs [_ [_ Hf]]].
  split; [rewrite Hs; reflexivity | rewrite Hf; reflexivity].
Defined.

(** ** Witnesses of the further properties *)

Lemma extracted_payload_uses_fields_witness :
  exists td, extract_thread_data "now" no_attr_elem = Some td /\
    py_strip (td_title td) = td_title td /\
    py_strip (td_author td) = td_author td /\
    py_strip (td_content td) = td_content td /\
    p_embed_title (build_payload (Some "42") td) = td_title td /\
    (td_content td <> "" ->
     p_embed_description (build_payload (Some "42") td) = td_content td).
Proof.
  eexists. split; [reflexivity|].
  apply (extracted_payload_uses_fields "now" (Some "42") no_attr_elem).
  reflexivity.
Defined.

Lemma monitor_seen_bound_witness :
  List.length (seen (loop_state
    (monitor 20 "now" sample_hash None empty_state 0
       [sample_env (other_threads 25); sample_env [thread_cand "5"]]))) <= 20.
Proof.
  apply (monitor_seen_bound 20 "now" sample_hash None ltac:(lia)).
  simpl. lia.
Defined.

Lemma monitor_runs_without_playwright_error_witness :
  exists st' c',
    monitor 20 "now" sample_hash None empty_state 0
      [sample_env [stale_cand; thread_cand "5"];
       scroll_fail_env [thread_cand "6"] 1 PyException] =
    LoopRunning st' c'.
Proof.
  apply (monitor_runs_without_playwright_error 20 "now" sample_hash None).
  reflexivity.
Defined.

Lemma monitor_restart_loads_seen_witness :
  load_seen_threads (file (loop_state
    (monitor 20 "now" sample_hash None empty_state 0
       [sample_env [thread_cand "5"; thread_cand "6"]]))) =
  json_of_ids (seen (loop_state
    (monitor 20 "now" sample_hash None empty_state 0
       [sample_env [thread_cand "5"; thread_cand "6"]]))).
Proof.
  apply (monitor_restart_loads_seen 20 "now" sample_hash None); reflexivity.
Defined.
